(** * usePagination: the pagination range and the page navigation

    A shallow embedding of the [usePagination] hook of usehooks-ts
    (the hook file, lines 54-145) and of [clamp] (src/utils/clamp/clamp.ts).
    Page numbers are JavaScript numbers restricted to integers, modelled
    as [Z]; the returned array of [number | 'dots'] is a list of
    [PageToken].  [Pagination] computes on the integers themselves;
    [Pagination64] writes out the rounding of binary64, and the two agree
    while every number formed is at most [2 ^ 53] in magnitude. *)

From stdpp Require Import base list list_numbers sorting numbers.
From stdpp Require Import strings gmap.

Local Open Scope Z_scope.

(** ** Utilities *)

Module Utils.

(** Modelled from the spec: the helper [range] that the hook imports from
    [../../utils] is not among the sources.  The spec describes
    [range(a, b)] as the pages [a..b] emitted contiguously, and an empty
    sequence when there is no page ([range(1, 0)] for [total = 0]).  It is
    the array of length [end - start + 1] whose cell [index] holds
    [index + start]. *)
Definition range (start end_ : Z) : list Z :=
  seqZ start (end_ - start + 1).

(** [clamp({ value, min, max })] of src/utils/clamp/clamp.ts. *)
Definition clamp (value min max : Z) : Z :=
  Z.min (Z.max value min) max.

End Utils.

Import Utils.

(** ** The tokens of a range *)

(** An entry of the returned array: a page number or the string ['dots']. *)
Inductive PageToken : Type :=
  | Num (n : Z)
  | DOTS.

#[global] Instance PageToken_eq_dec : EqDecision PageToken.
Proof. solve_decision. Defined.

(** ** Numbers *)

Module Binary64.

(** A JavaScript number is a binary64 float.  The hooks compute on
    integers, and a sum, difference or product of integers is the binary64
    nearest to the exact result: [fl x] is that float for the exact
    result [x], rounded to a significand of 53 bits, a tie going to the
    even significand.  Integers up to [2 ^ 53] in magnitude are kept as
    they are.  Magnitudes stay far below [2 ^ 1024], where a float
    overflows. *)
Definition fl (x : Z) : Z :=
  if Z.abs x <=? 2 ^ 53 then x
  else
    let e := Z.log2 (Z.abs x) - 52 in
    let q := Z.abs x / 2 ^ e in
    let r := Z.abs x mod 2 ^ e in
    let half := 2 ^ (e - 1) in
    let q' :=
      if r <? half then q
      else if half <? r then q + 1
      else if Z.even q then q else q + 1 in
    Z.sgn x * (q' * 2 ^ e).

(** [a + b], [a - b] and [a * b] on numbers. *)
Definition add (a b : Z) : Z := fl (a + b).
Definition sub (a b : Z) : Z := fl (a - b).
Definition mul (a b : Z) : Z := fl (a * b).

(** Modelled from the spec: the helper [range] of [../../utils], which is
    not among the sources, with its arithmetic on numbers: the array of
    length [end - start + 1] whose cell [index] holds [index + start]. *)
Definition range (start end_ : Z) : list Z :=
  let length := add (sub end_ start) 1 in
  (fun index : nat => add (Z.of_nat index) start)
    <$> seq 0 (Z.to_nat length).

(** The inputs on which every number the range computation forms is an
    integer of magnitude at most [2 ^ 53], so that no operation rounds. *)
Definition exact (total siblings boundaries : Z) : Prop :=
  total <= 2 ^ 53 - 1
  /\ total + siblings <= 2 ^ 53
  /\ siblings * 2 + 3 + boundaries * 2 <= 2 ^ 53.

End Binary64.

(** ** The hook *)

Module Pagination.

(** The callback given to [useMemo] (lines 86-134); [activePage] is the
    value read through the non-null assertion [activePage!]. *)
Definition paginationRange
    (total activePage siblings boundaries : Z) : list PageToken :=
  let totalPageNumbers := siblings * 2 + 3 + boundaries * 2 in
  if totalPageNumbers >=? total then
    Num <$> range 1 total
  else
    let leftSiblingIndex := Z.max (activePage - siblings) boundaries in
    let rightSiblingIndex :=
      Z.min (activePage + siblings) (total - boundaries) in
    let shouldShowLeftDots := leftSiblingIndex >? boundaries + 2 in
    let shouldShowRightDots :=
      rightSiblingIndex <? total - (boundaries + 1) in
    if negb shouldShowLeftDots && shouldShowRightDots then
      let leftItemCount := siblings * 2 + boundaries + 2 in
      (Num <$> range 1 leftItemCount)
        ++ [DOTS]
        ++ (Num <$> range (total - (boundaries - 1)) total)
    else if shouldShowLeftDots && negb shouldShowRightDots then
      let rightItemCount := boundaries + 1 + 2 * siblings in
      (Num <$> range 1 boundaries)
        ++ [DOTS]
        ++ (Num <$> range (total - rightItemCount) total)
    else
      (Num <$> range 1 boundaries)
        ++ [DOTS]
        ++ (Num <$> range leftSiblingIndex rightSiblingIndex)
        ++ [DOTS]
        ++ (Num <$> range (total - boundaries + 1) total).

(** [setPage] (lines 71-79): the value it hands to [setActivePage].  The
    function has no failing path: every branch calls the setter. *)
Definition setPage (total pageNumber : Z) : Z :=
  if pageNumber <=? 0 then 1
  else if pageNumber >? total then total
  else pageNumber.

(** Lines 81-84. *)
Definition next (total activePage : Z) : Z := setPage total (activePage + 1).
Definition previous (total activePage : Z) : Z := setPage total (activePage - 1).
Definition first (total : Z) : Z := setPage total 1.
Definition last (total : Z) : Z := setPage total total.

(** The [rule] given to [useUncontrolled] (lines 67-68):
    [typeof _page === 'number' && _page <= total]; [None] stands for
    [null] and [undefined]. *)
Definition rule (total : Z) (_page : option Z) : bool :=
  match _page with
  | Some n => n <=? total
  | None => false
  end.

(** *** Memoisation *)

(** The cell React keeps for one [useMemo] call: the dependency array of
    the render that last ran the callback, and the value it returned. *)
Record MemoCell (A : Type) : Type := mkMemo {
  memo_deps : list Z;
  memo_value : A;
}.
Arguments mkMemo {A} _ _.
Arguments memo_deps {A} _.
Arguments memo_value {A} _.

(** [useMemo(compute, deps)]: the callback runs on the first render and
    whenever an entry of [deps] differs from the stored one; otherwise
    the stored value is returned. *)
Definition useMemo {A : Type} (cell : option (MemoCell A))
    (compute : unit -> A) (deps : list Z) : A * option (MemoCell A) :=
  match cell with
  | Some c =>
      if decide (memo_deps c = deps) then (memo_value c, cell)
      else let v := compute tt in (v, Some (mkMemo deps v))
  | None => let v := compute tt in (v, Some (mkMemo deps v))
  end.

(** The [range] field of one render of the hook: [paginationRange] behind
    [useMemo] with the dependency array of line 134,
    [[total, siblings, activePage]]. *)
Definition render_range (cell : option (MemoCell (list PageToken)))
    (total activePage siblings boundaries : Z)
    : list PageToken * option (MemoCell (list PageToken)) :=
  useMemo cell
    (fun _ => paginationRange total activePage siblings boundaries)
    [total; siblings; activePage].

End Pagination.

Import Pagination.

(** *** The hook on binary64 numbers *)

Module Pagination64.
Import Binary64.

(** The callback of lines 86-134 with every [+], [-] and [*] of the
    source rounded as binary64 rounds it.  It agrees with
    [Pagination.paginationRange] while no operation rounds
    ([paginationRange_exact] below). *)
Definition paginationRange
    (total activePage siblings boundaries : Z) : list PageToken :=
  let totalPageNumbers := add (add (mul siblings 2) 3) (mul boundaries 2) in
  if totalPageNumbers >=? total then
    Num <$> range 1 total
  else
    let leftSiblingIndex := Z.max (sub activePage siblings) boundaries in
    let rightSiblingIndex :=
      Z.min (add activePage siblings) (sub total boundaries) in
    let shouldShowLeftDots := leftSiblingIndex >? add boundaries 2 in
    let shouldShowRightDots :=
      rightSiblingIndex <? sub total (add boundaries 1) in
    if negb shouldShowLeftDots && shouldShowRightDots then
      let leftItemCount := add (add (mul siblings 2) boundaries) 2 in
      (Num <$> range 1 leftItemCount)
        ++ [DOTS]
        ++ (Num <$> range (sub total (sub boundaries 1)) total)
    else if shouldShowLeftDots && negb shouldShowRightDots then
      let rightItemCount := add (add boundaries 1) (mul 2 siblings) in
      (Num <$> range 1 boundaries)
        ++ [DOTS]
        ++ (Num <$> range (sub total rightItemCount) total)
    else
      (Num <$> range 1 boundaries)
        ++ [DOTS]
        ++ (Num <$> range leftSiblingIndex rightSiblingIndex)
        ++ [DOTS]
        ++ (Num <$> range (add (sub total boundaries) 1) total).

(** Lines 81-82, with [activePage! + 1] and [activePage! - 1] rounded. *)
Definition next (total activePage : Z) : Z :=
  setPage total (add activePage 1).
Definition previous (total activePage : Z) : Z :=
  setPage total (sub activePage 1).



(** What the hook returns: the fields [range] and [active] of lines
    136-144. *)
Record Pagination : Type := mkPagination {
  range_of : list PageToken;
  active : Z;
}.


End Pagination64.

(** ** Vocabulary of the properties *)

(** The page numbers of a range, in order, ellipsis markers dropped. *)
Definition nums (l : list PageToken) : list Z :=
  omap (fun t => match t with Num n => Some n | DOTS => None end) l.

(** A page of [1..total]. *)
Definition valid_page (total v : Z) : Prop := 1 <= v <= total.

(** The first page number at or after the head of [l], or [total + 1]
    when no page number follows. *)
Definition next_num (total : Z) (l : list PageToken) : Z :=
  default (total + 1) (head (nums l)).

(** For each ellipsis marker of [l], the count of page numbers it stands
    for: those strictly between the page number before it ([prev], which
    starts at 0) and the page number after it. *)
Fixpoint gaps (total prev : Z) (l : list PageToken) : list Z :=
  match l with
  | [] => []
  | Num n :: r => gaps total n r
  | DOTS :: r => (next_num total r - prev - 1) :: gaps total prev r
  end.


(** ** The four shapes of a range *)

(** The branch taken by [paginationRange], with what its guards say about
    the inputs.  The last branch of the source is reached only with an
    ellipsis on both sides: with an ellipsis on neither side [total] would
    be at most the window [siblings * 2 + 3 + boundaries * 2]. *)
Inductive Shape (total activePage siblings boundaries : Z)
    : list PageToken -> Prop :=
  | shape_dense :
      total <= siblings * 2 + 3 + boundaries * 2 ->
      Shape total activePage siblings boundaries (Num <$> range 1 total)
  | shape_right_dots :
      siblings * 2 + 3 + boundaries * 2 < total ->
      activePage - siblings <= boundaries + 2 ->
      Shape total activePage siblings boundaries
        ((Num <$> range 1 (siblings * 2 + boundaries + 2))
           ++ [DOTS]
           ++ (Num <$> range (total - (boundaries - 1)) total))
  | shape_left_dots :
      siblings * 2 + 3 + boundaries * 2 < total ->
      total - (boundaries + 1) <= activePage + siblings ->
      Shape total activePage siblings boundaries
        ((Num <$> range 1 boundaries)
           ++ [DOTS]
           ++ (Num <$> range (total - (boundaries + 1 + 2 * siblings)) total))
  | shape_both_dots :
      siblings * 2 + 3 + boundaries * 2 < total ->
      boundaries + 2 < activePage - siblings ->
      activePage + siblings < total - (boundaries + 1) ->
      Shape total activePage siblings boundaries
        ((Num <$> range 1 boundaries)
           ++ [DOTS]
           ++ (Num <$> range (activePage - siblings) (activePage + siblings))
           ++ [DOTS]
           ++ (Num <$> range (total - boundaries + 1) total)).

(** A cell is sound for [boundaries] when the value it stores is the
    range of its stored dependencies and of that [boundaries]. *)
Definition cell_sound (boundaries : Z)
    (cell : option (MemoCell (list PageToken))) : Prop :=
  forall c, cell = Some c ->
    exists total siblings activePage,
      memo_deps c = [total; siblings; activePage]
      /\ memo_value c = paginationRange total activePage siblings boundaries.

(** The sum of a list of counts. *)
Definition sumZ (l : list Z) : Z := foldr Z.add 0 l.

(** The number of ellipsis markers of a range. *)
Definition dots_count (l : list PageToken) : nat :=
  length (filter (fun t => t = DOTS) l).

(** The ranges returned by successive renders of one component, each with
    its own [(total, activePage, siblings)] and all with the same
    [boundaries]; the memo cell is threaded from render to render. *)
Fixpoint render_all (cell : option (MemoCell (list PageToken)))
    (boundaries : Z) (inputs : list (Z * Z * Z)) : list (list PageToken) :=
  match inputs with
  | [] => []
  | (total, activePage, siblings) :: rest =>
      let r := render_range cell total activePage siblings boundaries in
      r.1 :: render_all r.2 boundaries rest
  end.

(** ** The other hooks *)

(** *** useForceUpdate *)

Module ForceUpdate.

(** [reducer] (src/hooks/useMap/useMap.ts, line 103):
    [(value + 1) % 1000000].  The [%] of JavaScript takes the sign of the
    dividend, as [Z.rem] does. *)
Definition reducer (value : Z) : Z := Z.rem (value + 1) 1000000.

(** The state of [useReducer(reducer, 0)] (line 123) after [n] calls of
    the returned [update]. *)
Definition updates (n : nat) : Z := Nat.iter n reducer 0.

End ForceUpdate.

(** *** useCounter and useBoolean *)

Module Counter.

(** [initialValue || 0] (lines 34 and 38 of the counter hook):
    [undefined] and 0 both give 0. *)
Definition initial (initialValue : option Z) : Z :=
  match initialValue with
  | Some n => if n =? 0 then 0 else n
  | None => 0
  end.

(** The updates given to [setCount] by [increment], [decrement] and
    [reset] (lines 36-38), [x + 1] and [x - 1] on numbers. *)
Definition increment (x : Z) : Z := Binary64.add x 1.
Definition decrement (x : Z) : Z := Binary64.sub x 1.
Definition reset (initialValue : option Z) (x : Z) : Z :=
  initial initialValue.

(** A call of one of the returned functions; [SetCount] is [setCount]
    called with a number. *)
Inductive Call : Type :=
  | Increment
  | Decrement
  | Reset
  | SetCount (value : Z).

Definition call (initialValue : option Z) (count : Z) (c : Call) : Z :=
  match c with
  | Increment => increment count
  | Decrement => decrement count
  | Reset => reset initialValue count
  | SetCount value => value
  end.

#[global] Instance Call_eq_dec : EqDecision Call.
Proof. solve_decision. Defined.

(** The count after a sequence of calls. *)
Definition calls (initialValue : option Z) (count : Z) (l : list Call) : Z :=
  foldl (call initialValue) count l.

End Counter.

Module Boolean.

(** [!!defaultValue] (line 116 of the boolean hook). *)
Definition initial (defaultValue : option bool) : bool :=
  match defaultValue with
  | Some b => b
  | None => false
  end.

(** The updates given to [setValue] (lines 118-120). *)
Definition setTrue (x : bool) : bool := true.
Definition setFalse (x : bool) : bool := false.
Definition toggle (x : bool) : bool := negb x.

End Boolean.

(** *** useCountdown *)

Module Countdown.

(** The two states the hook holds: the [count] of [useCounter(seconds)]
    and the [running] flag of [useBoolean(false)] (lines 57 and 64). *)
Record State : Type := mkState {
  count : Z;
  running : bool;
}.

(** What can happen to a countdown: a call of [start], [stop] or [reset],
    or a firing of the timer of [useInterval].  The timer is set only
    while [running] holds (line 74 passes the delay [null] otherwise, and
    [useInterval] schedules nothing for [null]). *)
Inductive Event : Type :=
  | Start
  | Stop
  | Reset
  | Tick.

Definition init (seconds : Z) : State :=
  mkState (Counter.initial (Some seconds)) (Boolean.initial (Some false)).

(** [isIncrement ? increment : decrement] (line 74). *)
Definition callback (isIncrement : option bool) : Z -> Z :=
  match isIncrement with
  | Some true => Counter.increment
  | _ => Counter.decrement
  end.

Definition step (seconds : Z) (isIncrement : option bool)
    (st : State) (e : Event) : State :=
  match e with
  | Start => mkState (count st) (Boolean.setTrue (running st))
  | Stop => mkState (count st) (Boolean.setFalse (running st))
  | Reset =>
      mkState (Counter.reset (Some seconds) (count st))
        (Boolean.setFalse (running st))
  | Tick =>
      if running st then mkState (callback isIncrement (count st)) (running st)
      else st
  end.

Definition run (seconds : Z) (isIncrement : option bool)
    (st : State) (events : list Event) : State :=
  foldl (step seconds isIncrement) st events.

End Countdown.

(** *** useTernaryDarkMode *)

Module TernaryDarkMode.

Inductive TernaryDarkMode : Type :=
  | system
  | dark
  | light.

(** [toggleDict] (lines 188-192 of the third hook of the dark mode
    file). *)
Definition toggleDict (prevMode : TernaryDarkMode) : TernaryDarkMode :=
  match prevMode with
  | light => system
  | system => dark
  | dark => light
  end.

(** The value the effect of lines 174-186 gives to [isDarkMode]. *)
Definition isDarkMode (ternaryDarkMode : TernaryDarkMode) (isDarkOS : bool)
    : bool :=
  match ternaryDarkMode with
  | light => false
  | system => isDarkOS
  | dark => true
  end.

End TernaryDarkMode.

(** *** useMap *)

Module UseMap.
Section useMap.
Context `{Countable K} {V : Type}.

(** [MapOrEntries<K, V>]: a [Map] or an array of pairs. *)
Inductive MapOrEntries : Type :=
  | AMap (m : gmap K V)
  | Entries (entries : list (K * V)).

(** [new Map(init)]: a copy of a map, or the map filled from the pairs in
    order, a later pair replacing an earlier one with the same key. *)
Definition new_Map (init : MapOrEntries) : gmap K V :=
  match init with
  | AMap m => m
  | Entries entries => foldl (fun m e => <[e.1 := e.2]> m) ∅ entries
  end.

(** The state of line 69, [initialState] defaulting to [new Map()]. *)
Definition initial (initialState : option MapOrEntries) : gmap K V :=
  new_Map (default (AMap ∅) initialState).

(** The updates given to [setMap] by the four actions (lines 72-94). *)
Definition set (key : K) (value : V) (prev : gmap K V) : gmap K V :=
  let copy := new_Map (AMap prev) in
  <[key := value]> copy.

Definition setAll (entries : MapOrEntries) (prev : gmap K V) : gmap K V :=
  new_Map entries.

Definition remove (key : K) (prev : gmap K V) : gmap K V :=
  let copy := new_Map (AMap prev) in
  delete key copy.

Definition reset (prev : gmap K V) : gmap K V :=
  new_Map (AMap ∅).

End useMap.
End UseMap.

(** *** useFetch *)

Module Fetch.

(** An [Error], kept as its message. *)
Definition Error : Type := string.

Section useFetch.
Context {T : Type}.

(** Whether a cached value is truthy, as the test
    [if (cache.current[url])] of line 91 asks. *)
Variable truthy : T -> bool.

(** What the cache object inherits under a name: [cache.current[url]]
    reads through the prototype chain, where every object finds
    [constructor], [toString] and the like. *)
Variable inherited : string -> option T.

Record State : Type := mkState {
  data : option T;
  error : option Error;
}.

Inductive Action : Type :=
  | loading
  | fetched (payload : T)
  | failed (payload : Error).

Definition initialState : State := mkState None None.

(** [fetchReducer] (lines 68-79); the [default] branch is out of reach of
    the three action types. *)
Definition fetchReducer (state : State) (action : Action) : State :=
  match action with
  | loading => initialState
  | fetched payload => mkState (Some payload) (error initialState)
  | failed payload => mkState (data initialState) (Some payload)
  end.

(** What one instance of the hook holds: the two refs and the state of
    [useReducer].  The [cache] is the finite map of the own keys of the
    cache object. *)
Record Hook : Type := mkHook {
  cache : gmap string T;
  cancelRequest : bool;
  state : State;
}.

Definition mount : Hook := mkHook ∅ false initialState.

Definition dispatch (action : Action) (h : Hook) : Hook :=
  mkHook (cache h) (cancelRequest h) (fetchReducer (state h) action).

(** How a request ends: [fetch] rejects, or gives a response with its
    [ok] flag, its [statusText] and what [json()] gives, an error or the
    data. *)
Inductive Response : Type :=
  | rejected (e : Error)
  | response (ok : bool) (statusText : string) (json : Error + T).

(** The [catch] block (lines 107-111). *)
Definition catch (e : Error) (h : Hook) : Hook :=
  if cancelRequest h then h else dispatch (failed e) h.

(** The [try] block (lines 96-106). *)
Definition request (url : string) (r : Response) (h : Hook) : Hook :=
  match r with
  | rejected e => catch e h
  | response ok statusText json =>
      if negb ok then catch statusText h
      else
        match json with
        | inl e => catch e h
        | inr d =>
            let h := mkHook (<[url := d]> (cache h)) (cancelRequest h)
                       (state h) in
            if cancelRequest h then h else dispatch (fetched d) h
        end
  end.

(** [cache.current[url]]: the own entry, and without one the inherited
    value. *)
Definition read (h : Hook) (url : string) : option T :=
  match cache h !! url with
  | Some c => Some c
  | None => inherited url
  end.

(** [fetchData] (lines 87-112), run to its end with the response [r]. *)
Definition fetchData (url : string) (r : Response) (h : Hook) : Hook :=
  let h := dispatch loading h in
  match read h url with
  | Some c => if truthy c then dispatch (fetched c) h else request url r h
  | None => request url r h
  end.

(** The effect of lines 83-122, and the cleanup it returns.  [!url] holds
    for [undefined] and for the empty string. *)
Definition effect (url : option string) (r : Response) (h : Hook) : Hook :=
  match url with
  | None => h
  | Some u => if decide (u = EmptyString) then h else fetchData u r h
  end.

Definition cleanup (h : Hook) : Hook :=
  mkHook (cache h) true (state h).

(** The life of one instance: effects, each run to its end before the
    next event, and cleanups. *)
Inductive Event : Type :=
  | Effect (url : option string) (r : Response)
  | Cleanup.

Definition step (h : Hook) (e : Event) : Hook :=
  match e with
  | Effect url r => effect url r h
  | Cleanup => cleanup h
  end.

Definition run (h : Hook) (events : list Event) : Hook :=
  foldl step h events.

End useFetch.
End Fetch.

(** The truthiness of a number: every number but 0 is truthy. *)
Definition truthy_number (n : Z) : bool := negb (n =? 0).

(** The names every object inherits from [Object.prototype]. *)
Definition Object_prototype_names : list string :=
  ["constructor"; "hasOwnProperty"; "isPrototypeOf";
   "propertyIsEnumerable"; "toLocaleString"; "toString"; "valueOf";
   "__proto__"; "__defineGetter__"; "__defineSetter__";
   "__lookupGetter__"; "__lookupSetter__"]%string.

(** What a plain object inherits under a name: under the names above a
    value [inheritedValue] (a function or the prototype itself, all
    truthy), and nothing under any other name. *)
Definition Object_prototype {T : Type} (inheritedValue : T)
    (name : string) : option T :=
  if bool_decide (name ∈ Object_prototype_names) then Some inheritedValue
  else None.

(** *** useIsFirstRender, useUpdateEffect and useDidUpdate *)

Module Effects.

(** A dependency array, or none. *)
Definition Deps : Type := option (list Z).

(** React's comparison of two dependency arrays: entry by entry over
    the indices both arrays have, so that only their common prefix
    counts. *)
Definition areHookInputsEqual (nextDeps prevDeps : list Z) : bool :=
  forallb (fun e => bool_decide (e.1 = e.2)) (zip nextDeps prevDeps).

(** Whether React runs the effect of [useEffect(f, deps)] after a render:
    after the first render ([prev] is [None]), after every render when
    there is no dependency array, and otherwise when the array is not
    equal, by React's comparison, to the one of the render before. *)
Definition due (prev : option Deps) (deps : Deps) : bool :=
  match prev, deps with
  | None, _ => true
  | Some (Some d), Some d' => negb (areHookInputsEqual d' d)
  | Some _, _ => true
  end.

(** [useIsFirstRender] (lines 29-39), on the ref [isFirst]: the value
    returned and the ref after the call. *)
Definition useIsFirstRender (isFirst : bool) : bool * bool :=
  if isFirst then (true, false) else (isFirst, isFirst).

(** What a hook with one ref and one effect holds. *)
Record Cell : Type := mkCell {
  ref : bool;
  lastDeps : option Deps;
}.

(** [useUpdateEffect(effect, deps)] (lines 35-44), for one render:
    whether [effect] is called, and the cell after the render. *)
Definition useUpdateEffect (deps : Deps) (c : Cell) : bool * Cell :=
  let '(isFirst, ref') := useIsFirstRender (ref c) in
  (due (lastDeps c) deps && negb isFirst, mkCell ref' (Some deps)).

(** The first cell of [useUpdateEffect]: [useRef(true)]. *)
Definition updateEffect_mount : Cell := mkCell true None.

(** [useDidUpdate(fn, dependencies)] (lines 12-22), for one render:
    whether [fn] is called, and the cell after the render; the ref is
    [mounted]. *)
Definition useDidUpdate (deps : Deps) (c : Cell) : bool * Cell :=
  if due (lastDeps c) deps then
    if ref c then (true, mkCell (ref c) (Some deps))
    else (false, mkCell true (Some deps))
  else (false, mkCell (ref c) (Some deps)).

(** The first cell of [useDidUpdate]: [useRef(false)]. *)
Definition didUpdate_mount : Cell := mkCell false None.

(** The calls made through successive renders, one dependency array per
    render. *)
Fixpoint renders (hook : Deps -> Cell -> bool * Cell) (c : Cell)
    (l : list Deps) : list bool :=
  match l with
  | [] => []
  | deps :: rest =>
      let r := hook deps c in
      r.1 :: renders hook r.2 rest
  end.

(** The values [useIsFirstRender] returns through [n] renders. *)
Fixpoint firstRenders (isFirst : bool) (n : nat) : list bool :=
  match n with
  | O => []
  | S n =>
      let r := useIsFirstRender isFirst in
      r.1 :: firstRenders r.2 n
  end.

End Effects.

(** ** The documented examples *)

Example range_page1 :
  paginationRange 10 1 1 1 = [Num 1; Num 2; Num 3; Num 4; Num 5; DOTS; Num 10].
Proof. reflexivity. Qed.

Example range_page5 :
  paginationRange 10 5 1 1 = [Num 1; DOTS; Num 4; Num 5; Num 6; DOTS; Num 10].
Proof. reflexivity. Qed.

Example range_page6_after_next :
  paginationRange 10 (next 10 5) 1 1
  = [Num 1; DOTS; Num 5; Num 6; Num 7; DOTS; Num 10].
Proof. reflexivity. Qed.

Example range_page9 :
  paginationRange 10 (next 10 8) 1 1
  = [Num 1; DOTS; Num 6; Num 7; Num 8; Num 9; Num 10].
Proof. reflexivity. Qed.

Example range_last :
  paginationRange 10 (Pagination.last 10) 1 1
  = [Num 1; DOTS; Num 6; Num 7; Num 8; Num 9; Num 10].
Proof. reflexivity. Qed.

Example range_total5 :
  paginationRange 5 3 1 1 = [Num 1; Num 2; Num 3; Num 4; Num 5].
Proof. reflexivity. Qed.

Example gaps_page5 : gaps 10 0 (paginationRange 10 5 1 1) = [2; 3].
Proof. reflexivity. Qed.

(** ** Facts about [range] *)

Lemma range_nil (start end_ : Z) : end_ < start -> range start end_ = [].
Proof. intros. apply seqZ_nil. lia. Qed.

Lemma length_range (start end_ : Z) :
  length (range start end_) = Z.to_nat (end_ - start + 1).
Proof. apply length_seqZ. Qed.

Lemma elem_of_range (start end_ k : Z) :
  k ∈ range start end_ <-> start <= k <= end_.
Proof. unfold range. rewrite elem_of_seqZ. lia. Qed.

Lemma range_cons (start end_ : Z) :
  start <= end_ -> range start end_ = start :: range (start + 1) end_.
Proof.
  intros. unfold range. rewrite seqZ_cons by lia.
  f_equal. f_equal; lia.
Qed.

Lemma range_snoc (start end_ : Z) :
  start <= end_ -> range start end_ = range start (end_ - 1) ++ [end_].
Proof.
  intros. unfold range.
  replace (end_ - start + 1) with (Z.of_nat (S (Z.to_nat (end_ - start))))
    by lia.
  rewrite seqZ_S. f_equal; [f_equal|f_equal]; lia.
Qed.

Lemma head_range (start end_ : Z) :
  start <= end_ -> head (range start end_) = Some start.
Proof. intros. by rewrite range_cons. Qed.

Lemma last_range (start end_ : Z) :
  start <= end_ -> list.last (range start end_) = Some end_.
Proof. intros. rewrite range_snoc by done. apply last_snoc. Qed.



(** ** Facts about the vocabulary *)

Lemma nums_Num (l : list Z) : nums (Num <$> l) = l.
Proof.
  induction l as [|x l IH]; [done|].
  change (nums (Num <$> x :: l)) with (x :: nums (Num <$> l)).
  by rewrite IH.
Qed.

Lemma nums_app (l1 l2 : list PageToken) : nums (l1 ++ l2) = nums l1 ++ nums l2.
Proof. apply omap_app. Qed.

Lemma nums_DOTS : nums [DOTS] = [].
Proof. reflexivity. Qed.

Lemma elem_of_nums (n : Z) (l : list PageToken) : n ∈ nums l <-> Num n ∈ l.
Proof.
  unfold nums. rewrite list_elem_of_omap. split.
  - intros [[m|] [Hin Heq]]; naive_solver.
  - intros Hin. exists (Num n). done.
Qed.

Lemma DOTS_not_in_Num (l : list Z) : DOTS ∉ (Num <$> l).
Proof. intros (x & Hx & _)%list_elem_of_fmap. discriminate Hx. Qed.

Lemma gaps_Num_app (total prev : Z) (l : list Z) (r : list PageToken) :
  gaps total prev ((Num <$> l) ++ r) = gaps total (default prev (list.last l)) r.
Proof.
  revert prev. induction l as [|x l IH]; intros prev; [done|].
  change (gaps total prev ((Num <$> x :: l) ++ r))
    with (gaps total x ((Num <$> l) ++ r)).
  rewrite IH, last_cons. by destruct (list.last l).
Qed.

Lemma gaps_Num (total prev : Z) (l : list Z) :
  gaps total prev (Num <$> l) = [].
Proof.
  rewrite <- (app_nil_r (Num <$> l)). by rewrite gaps_Num_app.
Qed.

Lemma next_num_Num_app (total : Z) (l : list Z) (r : list PageToken) :
  next_num total ((Num <$> l) ++ r) = default (next_num total r) (head l).
Proof. unfold next_num. rewrite nums_app, nums_Num. by destruct l. Qed.

Lemma elem_of_Num_range (n start end_ : Z) :
  Num n ∈ (Num <$> range start end_) <-> start <= n <= end_.
Proof.
  rewrite <- elem_of_range, list_elem_of_fmap. split.
  - intros (x & Hx & Hin). by injection Hx as ->.
  - intros Hin. by exists n.
Qed.

Lemma Num_not_DOTS (n : Z) : Num n ∈ [DOTS] <-> False.
Proof. rewrite list_elem_of_singleton. split; [discriminate|tauto]. Qed.

Lemma prev_of_range (end_ : Z) :
  0 <= end_ -> default 0 (list.last (range 1 end_)) = end_.
Proof.
  intros. destruct (decide (end_ = 0)) as [->|].
  - reflexivity.
  - by rewrite last_range by lia.
Qed.

Lemma next_of_range (total start : Z) :
  start <= total + 1 ->
  next_num total (Num <$> range start total) = start.
Proof.
  intros. unfold next_num. rewrite nums_Num.
  destruct (decide (start = total + 1)) as [->|].
  - by rewrite range_nil by lia.
  - by rewrite head_range by lia.
Qed.

Lemma gaps_nonempty (total : Z) (l : list PageToken) :
  forall prev, DOTS ∈ l -> gaps total prev l <> [].
Proof.
  induction l as [|[n|] l IH]; intros prev Hin.
  - by apply elem_of_nil in Hin.
  - apply elem_of_cons in Hin as [|Hin]; [done|]. by apply IH.
  - discriminate.
Qed.


(** ** The branch taken *)

Lemma paginationRange_shape (total activePage siblings boundaries : Z) :
  Shape total activePage siblings boundaries
    (paginationRange total activePage siblings boundaries).
Proof.
  unfold paginationRange.
  destruct (Z.geb_spec (siblings * 2 + 3 + boundaries * 2) total) as [Hw|Hw].
  { by apply shape_dense. }
  cbv zeta.
  destruct (Z.gtb_spec (Z.max (activePage - siblings) boundaries)
              (boundaries + 2)) as [Hl|Hl];
    destruct (Z.ltb_spec (Z.min (activePage + siblings) (total - boundaries))
                (total - (boundaries + 1))) as [Hr|Hr]; simpl.
  - rewrite Z.max_l, Z.min_l by lia. apply shape_both_dots; lia.
  - apply shape_left_dots; lia.
  - apply shape_right_dots; lia.
  - lia.
Qed.

(** ** Exact arithmetic *)

Lemma fl_exact (x : Z) : Z.abs x <= 2 ^ 53 -> Binary64.fl x = x.
Proof.
  intros. unfold Binary64.fl.
  by destruct (Z.leb_spec (Z.abs x) (2 ^ 53)); [|lia].
Qed.


(** Rewrites an innermost rounding whose argument is shown to be at most
    [2 ^ 53] in magnitude. *)
Ltac exact_step :=
  match goal with
  | |- context [Binary64.fl ?x] =>
      lazymatch x with
      | context [Binary64.fl _] => fail
      | _ => rewrite (fl_exact x) by lia
      end
  end.

Ltac exact_arith :=
  unfold Binary64.add, Binary64.sub, Binary64.mul; repeat exact_step.

Lemma range_exact (start end_ : Z) :
  - 2 ^ 53 <= start -> end_ <= 2 ^ 53 ->
  - 2 ^ 53 <= end_ - start <= 2 ^ 53 - 1 ->
  Binary64.range start end_ = range start end_.
Proof.
  intros Hs He Hd. unfold Binary64.range, range, seqZ.
  unfold Binary64.add, Binary64.sub.
  rewrite (fl_exact (end_ - start)) by lia.
  rewrite (fl_exact (end_ - start + 1)) by lia.
  apply list_fmap_ext. intros i k [-> Hlt]%lookup_seq.
  apply fl_exact. lia.
Qed.

(** While no operation rounds, the callback on binary64 numbers is the
    callback on integers. *)
Lemma paginationRange_exact (total activePage siblings boundaries : Z) :
  0 <= total -> 0 <= siblings -> 0 <= boundaries ->
  0 <= activePage <= total ->
  Binary64.exact total siblings boundaries ->
  Pagination64.paginationRange total activePage siblings boundaries
  = paginationRange total activePage siblings boundaries.
Proof.
  intros Ht Hs Hb Hp (Htot & Hts & Hw).
  unfold Pagination64.paginationRange, paginationRange.
  exact_arith.
  destruct (Z.geb_spec (siblings * 2 + 3 + boundaries * 2) total) as [Hd|Hd].
  { by rewrite range_exact by lia. }
  cbv zeta.
  destruct (Z.gtb_spec (Z.max (activePage - siblings) boundaries)
              (boundaries + 2)) as [Hl|Hl];
    destruct (Z.ltb_spec (Z.min (activePage + siblings) (total - boundaries))
                (total - (boundaries + 1))) as [Hr|Hr]; simpl;
    rewrite !range_exact by lia; reflexivity.
Qed.

(** ** Order, first and last token *)

Lemma head_Num_range_app (end_ : Z) (l : list PageToken) :
  1 <= end_ -> head ((Num <$> range 1 end_) ++ l) = Some (Num 1).
Proof. intros. by rewrite range_cons. Qed.

Lemma last_app_Num_range (start total : Z) (l : list PageToken) :
  start <= total ->
  list.last (l ++ (Num <$> range start total)) = Some (Num total).
Proof.
  intros. rewrite range_snoc, fmap_app, app_assoc by done. apply last_snoc.
Qed.




Lemma paginationRange_first_last (total activePage siblings boundaries : Z) :
  1 <= total -> 0 <= siblings -> 0 <= boundaries ->
  1 <= boundaries \/ total <= siblings * 2 + 3 + boundaries * 2 ->
  head (paginationRange total activePage siblings boundaries) = Some (Num 1)
  /\ list.last (paginationRange total activePage siblings boundaries)
     = Some (Num total).
Proof.
  intros Ht Hs Hb Hedge.
  destruct (paginationRange_shape total activePage siblings boundaries).
  - split.
    + rewrite <- (app_nil_r (_ <$> _)). by apply head_Num_range_app.
    + by apply (last_app_Num_range 1 total []).
  - split; [apply head_Num_range_app; lia|].
    rewrite app_assoc. apply last_app_Num_range. lia.
  - split; [apply head_Num_range_app; lia|].
    rewrite app_assoc. apply last_app_Num_range. lia.
  - split; [apply head_Num_range_app; lia|].
    rewrite !app_assoc. apply last_app_Num_range. lia.
Qed.






(** ** What an ellipsis marker stands for *)

Lemma gaps_one_dots (total : Z) (l1 l3 : list Z) :
  gaps total 0 ((Num <$> l1) ++ [DOTS] ++ (Num <$> l3))
  = [next_num total (Num <$> l3) - default 0 (list.last l1) - 1].
Proof. rewrite gaps_Num_app. simpl. by rewrite gaps_Num. Qed.

Lemma gaps_two_dots (total : Z) (l1 l2 l3 : list Z) :
  l2 <> [] ->
  gaps total 0
    ((Num <$> l1) ++ [DOTS] ++ (Num <$> l2) ++ [DOTS] ++ (Num <$> l3))
  = [default 0 (head l2) - default 0 (list.last l1) - 1;
     next_num total (Num <$> l3) - default 0 (list.last l2) - 1].
Proof.
  intros Hl2. rewrite gaps_Num_app. simpl.
  rewrite next_num_Num_app, gaps_Num_app. simpl. rewrite gaps_Num.
  destruct l2 as [|x l2]; [done|]. simpl.
  by destruct (list.last (x :: l2)) eqn:Hlast;
    [|apply last_None in Hlast].
Qed.

Lemma paginationRange_gaps (total activePage siblings boundaries : Z) :
  0 <= siblings -> 0 <= boundaries ->
  Forall (fun g => 2 <= g)
    (gaps total 0 (paginationRange total activePage siblings boundaries)).
Proof.
  intros Hs Hb.
  destruct (paginationRange_shape total activePage siblings boundaries).
  - rewrite gaps_Num. constructor.
  - rewrite gaps_one_dots, prev_of_range, next_of_range by lia.
    repeat constructor. lia.
  - rewrite gaps_one_dots, prev_of_range, next_of_range by lia.
    repeat constructor. lia.
  - rewrite gaps_two_dots.
    + rewrite prev_of_range, next_of_range, head_range, last_range by lia.
      simpl. repeat constructor; lia.
    + rewrite range_cons by lia. discriminate.
Qed.

(** C2 (as amended).  For [total >= 1], [siblings >= 0],
    [boundaries >= 0] and [activePage] in [1..total], while no operation
    of the computation rounds ([Binary64.exact]), when the range contains
    an ellipsis marker, every ellipsis marker of the range stands for at
    least two page numbers: the pages strictly between the page number
    before the marker (or 0) and the page number after it (or
    [total + 1]). *)
Theorem C2_dots_elide_two_pages (total activePage siblings boundaries : Z) :
  1 <= total -> 0 <= siblings -> 0 <= boundaries ->
  1 <= activePage <= total ->
  Binary64.exact total siblings boundaries ->
  DOTS ∈ Pagination64.paginationRange total activePage siblings boundaries ->
  gaps total 0
    (Pagination64.paginationRange total activePage siblings boundaries)
  <> []
  /\ Forall (fun g => 2 <= g)
       (gaps total 0
          (Pagination64.paginationRange total activePage siblings
             boundaries)).
Proof.
  intros Ht Hs Hb Hp Hexact.
  rewrite paginationRange_exact by (done || lia). intros Hdots. split.
  - by apply gaps_nonempty.
  - by apply paginationRange_gaps.
Qed.

Lemma C2_dots_elide_two_pages_witness :
  gaps 10 0 (Pagination64.paginationRange 10 5 1 1) <> []
  /\ Forall (fun g => 2 <= g)
       (gaps 10 0 (Pagination64.paginationRange 10 5 1 1)).
Proof.
  apply (C2_dots_elide_two_pages 10 5 1 1); try lia.
  - unfold Binary64.exact. lia.
  - vm_compute. apply list_elem_of_further, list_elem_of_here.
Defined.

(** C2 as stated fails where the arithmetic rounds.  With
    [total = 2 ^ 53], the page [2 ^ 53 - 2] active and no siblings or
    boundaries, [total - boundaries + 1] of line 132 rounds to [2 ^ 53]:
    the range is [dots, 2 ^ 53 - 2, dots, 2 ^ 53], and its second
    ellipsis marker stands for the one page [2 ^ 53 - 1]. *)
Lemma C2_counterexample_rounding :
  1 <= 2 ^ 53 /\ 1 <= 2 ^ 53 - 2 <= 2 ^ 53
  /\ Pagination64.paginationRange (2 ^ 53) (2 ^ 53 - 2) 0 0
     = [DOTS; Num (2 ^ 53 - 2); DOTS; Num (2 ^ 53)]
  /\ gaps (2 ^ 53) 0 (Pagination64.paginationRange (2 ^ 53) (2 ^ 53 - 2) 0 0)
     = [2 ^ 53 - 3; 1]
  /\ ~ Forall (fun g => 2 <= g)
         (gaps (2 ^ 53) 0
            (Pagination64.paginationRange (2 ^ 53) (2 ^ 53 - 2) 0 0)).
Proof.
  split_and!; try lia; try (vm_compute; reflexivity).
  change (gaps (2 ^ 53) 0
            (Pagination64.paginationRange (2 ^ 53) (2 ^ 53 - 2) 0 0))
    with [2 ^ 53 - 3; 1].
  intros H. apply Forall_cons in H as [_ H].
  apply Forall_cons in H as [H _]. lia.
Qed.

(** ** The dense range and the length of a range *)

Lemma range_from_1 (total : Z) :
  range 1 total = Z.of_nat <$> seq 1 (Z.to_nat total).
Proof.
  unfold range, seqZ. replace (total - 1 + 1) with total by lia.
  rewrite <- fmap_S_seq, <- list_fmap_compose.
  apply list_fmap_ext. intros _ i _. simpl. lia.
Qed.

Lemma paginationRange_dense (total activePage siblings boundaries : Z) :
  siblings * 2 + 3 + boundaries * 2 >= total ->
  paginationRange total activePage siblings boundaries
  = Num <$> range 1 total.
Proof.
  intros Hw. unfold paginationRange.
  by destruct (Z.geb_spec (siblings * 2 + 3 + boundaries * 2) total);
    [|lia].
Qed.

(** C5.  For [total >= 0], [siblings >= 0], [boundaries >= 0] and
    [activePage] in [1..total], when the window
    [2 * siblings + 3 + 2 * boundaries] is at least [total] the range is
    the list of the page numbers 1, 2, ..., [total], and holds no ellipsis
    marker. *)
Theorem C5_window_covers_total (total activePage siblings boundaries : Z) :
  0 <= total -> 0 <= siblings -> 0 <= boundaries ->
  1 <= activePage <= total ->
  2 * siblings + 3 + 2 * boundaries >= total ->
  paginationRange total activePage siblings boundaries
  = (fun i : nat => Num (Z.of_nat i)) <$> seq 1 (Z.to_nat total)
  /\ DOTS ∉ paginationRange total activePage siblings boundaries.
Proof.
  intros Ht Hs Hb Hp Hw.
  rewrite paginationRange_dense by lia. split.
  - by rewrite range_from_1, <- list_fmap_compose.
  - apply DOTS_not_in_Num.
Qed.

Lemma C5_window_covers_total_witness :
  paginationRange 5 2 1 1
  = (fun i : nat => Num (Z.of_nat i)) <$> seq 1 (Z.to_nat 5)
  /\ DOTS ∉ paginationRange 5 2 1 1.
Proof. apply (C5_window_covers_total 5 2 1 1); lia. Defined.

Lemma paginationRange_length (total activePage siblings boundaries : Z) :
  0 <= siblings -> 0 <= boundaries ->
  Z.of_nat (length (paginationRange total activePage siblings boundaries))
  <= 2 * boundaries + 2 * siblings + 3.
Proof.
  intros Hs Hb.
  destruct (paginationRange_shape total activePage siblings boundaries);
    rewrite ?length_app, ?length_fmap, ?length_range; simpl; lia.
Qed.

(** C6 (as amended).  For [total >= 0], [siblings >= 0],
    [boundaries >= 0] and [activePage] in [1..total], while no operation
    of the computation rounds ([Binary64.exact]), the range has at most
    [2 * boundaries + 2 * siblings + 3] tokens, page numbers and ellipsis
    markers together. *)
Theorem C6_range_length_bound (total activePage siblings boundaries : Z) :
  0 <= total -> 0 <= siblings -> 0 <= boundaries ->
  1 <= activePage <= total ->
  Binary64.exact total siblings boundaries ->
  Z.of_nat
    (length
       (Pagination64.paginationRange total activePage siblings boundaries))
  <= 2 * boundaries + 2 * siblings + 3.
Proof.
  intros Ht Hs Hb Hp Hexact.
  rewrite paginationRange_exact by (done || lia).
  by apply paginationRange_length.
Qed.

Lemma C6_range_length_bound_witness :
  Z.of_nat (length (Pagination64.paginationRange 10 5 1 1))
  <= 2 * 1 + 2 * 1 + 3.
Proof.
  apply (C6_range_length_bound 10 5 1 1); try lia.
  unfold Binary64.exact. lia.
Defined.

(** C6 as stated fails where the arithmetic rounds.  With
    [total = 2 ^ 53 + 2], the first page active, one sibling and
    [boundaries = 2], [total - (boundaries - 1)] of line 114 rounds to
    [2 ^ 53], one page before the last two: the range has 10 tokens where
    [2 * boundaries + 2 * siblings + 3] is 9. *)
Lemma C6_counterexample_rounding :
  0 <= 2 ^ 53 + 2 /\ 1 <= 1 <= 2 ^ 53 + 2
  /\ Pagination64.paginationRange (2 ^ 53 + 2) 1 1 2
     = [Num 1; Num 2; Num 3; Num 4; Num 5; Num 6; DOTS;
        Num (2 ^ 53); Num (2 ^ 53); Num (2 ^ 53 + 2)]
  /\ ~ Z.of_nat (length (Pagination64.paginationRange (2 ^ 53 + 2) 1 1 2))
       <= 2 * 2 + 2 * 1 + 3.
Proof.
  split_and!; try lia; [vm_compute; reflexivity|].
  change (length (Pagination64.paginationRange (2 ^ 53 + 2) 1 1 2))
    with 10%nat.
  lia.
Qed.

(** ** The page numbers of a range *)

Ltac page_in_shape :=
  rewrite ?elem_of_app, ?elem_of_Num_range, ?Num_not_DOTS.

(** C9 (as amended).  For [total >= 1], [siblings >= 0],
    [boundaries >= 0] and [activePage] in [1..total], while no operation
    of the computation rounds ([Binary64.exact]), the active page is one
    of the page numbers of the range. *)
Theorem C9_active_page_shown (total activePage siblings boundaries : Z) :
  1 <= total -> 0 <= siblings -> 0 <= boundaries ->
  1 <= activePage <= total ->
  Binary64.exact total siblings boundaries ->
  Num activePage
  ∈ Pagination64.paginationRange total activePage siblings boundaries.
Proof.
  intros Ht Hs Hb Hp Hexact.
  rewrite paginationRange_exact by (done || lia).
  destruct (paginationRange_shape total activePage siblings boundaries);
    page_in_shape; lia.
Qed.

Lemma C9_active_page_shown_witness :
  Num 5 ∈ Pagination64.paginationRange 10 5 1 1.
Proof.
  apply (C9_active_page_shown 10 5 1 1); try lia.
  unfold Binary64.exact. lia.
Defined.

(** C9 as stated fails where the arithmetic rounds.  With
    [total = 2 ^ 53 + 6], the page [2 ^ 53 + 2] active, one sibling and no
    boundaries, [activePage + siblings] and [total - (boundaries + 1)]
    both round to [2 ^ 53 + 4], so no ellipsis is shown on the right, and
    [total - rightItemCount] rounds to [2 ^ 53 + 4] too: the range is an
    ellipsis marker and the pages from [2 ^ 53 + 4] on, without the
    active page. *)
Lemma C9_counterexample_rounding :
  1 <= 2 ^ 53 + 6 /\ 1 <= 2 ^ 53 + 2 <= 2 ^ 53 + 6
  /\ Pagination64.paginationRange (2 ^ 53 + 6) (2 ^ 53 + 2) 1 0
     = [DOTS; Num (2 ^ 53 + 4); Num (2 ^ 53 + 4); Num (2 ^ 53 + 6)]
  /\ Num (2 ^ 53 + 2)
     ∉ Pagination64.paginationRange (2 ^ 53 + 6) (2 ^ 53 + 2) 1 0.
Proof.
  split_and!; try lia; [vm_compute; reflexivity|].
  change (Pagination64.paginationRange (2 ^ 53 + 6) (2 ^ 53 + 2) 1 0)
    with [DOTS; Num (2 ^ 53 + 4); Num (2 ^ 53 + 4); Num (2 ^ 53 + 6)].
  rewrite !not_elem_of_cons. split_and!; try discriminate.
  apply not_elem_of_nil.
Qed.

(** C10.  For [total >= 1], [siblings >= 0], [boundaries >= 0] and
    [activePage] in [1..total], every page number of the range lies in
    [1..total]. *)
Theorem C10_page_numbers_in_bounds
    (total activePage siblings boundaries n : Z) :
  1 <= total -> 0 <= siblings -> 0 <= boundaries ->
  1 <= activePage <= total ->
  Num n ∈ paginationRange total activePage siblings boundaries ->
  valid_page total n.
Proof.
  intros Ht Hs Hb Hp. unfold valid_page.
  destruct (paginationRange_shape total activePage siblings boundaries);
    page_in_shape; lia.
Qed.

Lemma C10_page_numbers_in_bounds_witness : valid_page 10 6.
Proof.
  apply (C10_page_numbers_in_bounds 10 5 1 1 6); try lia.
  vm_compute. do 4 apply list_elem_of_further. apply list_elem_of_here.
Defined.

(** ** Navigation *)

Lemma setPage_low (total pageNumber : Z) :
  pageNumber <= 0 -> setPage total pageNumber = 1.
Proof. intros. unfold setPage. by destruct (Z.leb_spec pageNumber 0); [|lia]. Qed.

Lemma setPage_high (total pageNumber : Z) :
  0 < pageNumber -> total < pageNumber -> setPage total pageNumber = total.
Proof.
  intros. unfold setPage.
  destruct (Z.leb_spec pageNumber 0); [lia|].
  by destruct (Z.gtb_spec pageNumber total); [|lia].
Qed.

Lemma setPage_inside (total pageNumber : Z) :
  0 < pageNumber <= total -> setPage total pageNumber = pageNumber.
Proof.
  intros. unfold setPage.
  destruct (Z.leb_spec pageNumber 0); [lia|].
  by destruct (Z.gtb_spec pageNumber total); [lia|].
Qed.

Lemma setPage_valid (total pageNumber : Z) :
  1 <= total -> valid_page total (setPage total pageNumber).
Proof.
  intros. unfold valid_page, setPage.
  destruct (Z.leb_spec pageNumber 0); [lia|].
  destruct (Z.gtb_spec pageNumber total); lia.
Qed.

(** With at least one page, [setPage] computes the [clamp] of the
    utilities between 1 and [total]. *)
Lemma setPage_clamp (total pageNumber : Z) :
  1 <= total -> setPage total pageNumber = clamp pageNumber 1 total.
Proof.
  intros. unfold clamp, setPage.
  destruct (Z.leb_spec pageNumber 0); [lia|].
  destruct (Z.gtb_spec pageNumber total); lia.
Qed.

(** [next], [previous], [first] and [last] inherit the clamp. *)
Lemma navigation_valid (total activePage : Z) :
  1 <= total ->
  valid_page total (next total activePage)
  /\ valid_page total (previous total activePage)
  /\ first total = 1
  /\ Pagination.last total = total.
Proof.
  intros Ht. split_and!; try apply setPage_valid; try done.
  - apply setPage_inside. lia.
  - apply setPage_inside. lia.
Qed.

(** C3 (as amended).  For [total >= 0] and every integer [pageNumber],
    [setPage] selects 1 when [pageNumber <= 0], [total] when
    [pageNumber > total] and [pageNumber] itself otherwise; so
    [setPage 0] and [setPage (-5)] select 1 and [setPage (total + 50)]
    selects [total].  The function has no failing path.  When
    [total >= 1] the selected page is a page of [1..total]. *)
Theorem C3_setPage_clamps (total pageNumber : Z) :
  0 <= total ->
  (pageNumber <= 0 -> setPage total pageNumber = 1)
  /\ (pageNumber > total -> setPage total pageNumber = total)
  /\ (~ pageNumber <= 0 -> ~ pageNumber > total ->
      setPage total pageNumber = pageNumber)
  /\ setPage total 0 = 1
  /\ setPage total (-5) = 1
  /\ setPage total (total + 50) = total
  /\ (1 <= total -> valid_page total (setPage total pageNumber)).
Proof.
  intros Ht. split_and!.
  - apply setPage_low.
  - intros. apply setPage_high; lia.
  - intros. apply setPage_inside; lia.
  - by apply setPage_low.
  - by apply setPage_low.
  - apply setPage_high; lia.
  - apply setPage_valid.
Qed.

Lemma C3_setPage_clamps_witness :
  setPage 3 7 = 3 /\ valid_page 3 (setPage 3 7).
Proof.
  destruct (C3_setPage_clamps 3 7) as (_ & Hhigh & _ & _ & _ & _ & Hvalid);
    [lia|].
  split; [apply Hhigh; lia|apply Hvalid; lia].
Defined.

(** C3 as stated fails with [total = 0]: [setPage 0] selects the page 1,
    which is no page of the empty [1..0]. *)
Lemma C3_counterexample_no_pages :
  0 <= 0 /\ setPage 0 0 = 1 /\ ~ valid_page 0 (setPage 0 0).
Proof. split_and!; [lia|reflexivity|]. vm_compute. intros [_ H]. by apply H. Qed.

(** C7 (as amended).  For [total >= 1] and every integer [x], applying
    [setPage] to the page [setPage] selected selects the same page. *)
Theorem C7_setPage_idempotent (total x : Z) :
  1 <= total -> setPage total (setPage total x) = setPage total x.
Proof.
  intros Ht. apply setPage_inside.
  pose proof (setPage_valid total x Ht) as Hv. unfold valid_page in Hv. lia.
Qed.

Lemma C7_setPage_idempotent_witness :
  setPage 10 (setPage 10 42) = setPage 10 42.
Proof. apply (C7_setPage_idempotent 10 42). lia. Defined.

(** C7 as stated fails with [total = 0]: [setPage 0] selects 1, and
    [setPage 1] selects [total], which is 0. *)
Lemma C7_counterexample_no_pages :
  0 <= 0 /\ setPage 0 0 = 1 /\ setPage 0 (setPage 0 0) = 0
  /\ setPage 0 (setPage 0 0) <> setPage 0 0.
Proof. split_and!; [lia|reflexivity|reflexivity|discriminate]. Qed.

(** ** No pages *)




(** ** The memoised range *)

(** On a first render the hook returns what the callback computes. *)
Lemma render_range_first (total activePage siblings boundaries : Z) :
  (render_range None total activePage siblings boundaries).1
  = paginationRange total activePage siblings boundaries.
Proof. reflexivity. Qed.

(** While [boundaries] stays the same from render to render, the hook
    returns the range of its four inputs and keeps the cell sound. *)
Lemma render_range_fixed_boundaries
    (cell : option (MemoCell (list PageToken)))
    (total activePage siblings boundaries : Z) :
  cell_sound boundaries cell ->
  (render_range cell total activePage siblings boundaries).1
  = paginationRange total activePage siblings boundaries
  /\ cell_sound boundaries
       (render_range cell total activePage siblings boundaries).2.
Proof.
  intros Hsound. unfold render_range, useMemo.
  destruct cell as [c|]; [destruct (decide _) as [Heq|Hne]|]; simpl.
  - destruct (Hsound c eq_refl) as (t & s & a & Hdeps & Hval).
    rewrite Hdeps in Heq. injection Heq as -> -> ->.
    split; [done|]. intros c' [= <-]. by exists total, siblings, activePage.
  - split; [done|]. intros c' [= <-]. by exists total, siblings, activePage.
  - split; [done|]. intros c' [= <-]. by exists total, siblings, activePage.
Qed.

(** C4 (the code at the failing input).  A render with ten pages, the
    first page active, one sibling and [boundaries = 1], followed by a
    render where only [boundaries] changed to 2, returns the range of the
    first render again: [boundaries] is not in the dependency array.  A
    first render with the same four inputs returns another range. *)
Theorem C4_memo_ignores_boundaries :
  let first_render := render_range None 10 1 1 1 in
  let second_render := render_range first_render.2 10 1 1 2 in
  let fresh_render := render_range None 10 1 1 2 in
  first_render.1 = [Num 1; Num 2; Num 3; Num 4; Num 5; DOTS; Num 10]
  /\ second_render.1 = [Num 1; Num 2; Num 3; Num 4; Num 5; DOTS; Num 10]
  /\ fresh_render.1
     = [Num 1; Num 2; Num 3; Num 4; Num 5; Num 6; DOTS; Num 9; Num 10]
  /\ fresh_render.1 = paginationRange 10 1 1 2
  /\ second_render.1 <> fresh_render.1.
Proof. split_and!; [reflexivity..|discriminate]. Qed.

(** * Further properties of the hook *)

(** ** The size of a range *)

(** X1.  With [total], [siblings] and [boundaries] non-negative and the
    active page in [0..total], while no operation of the computation
    rounds ([Binary64.exact]), the range has exactly
    [min total (siblings * 2 + 3 + boundaries * 2)] tokens, whatever the
    active page: moving through the pages never changes the size of the
    pagination. *)
Theorem X1_range_length_exact (total activePage siblings boundaries : Z) :
  0 <= total -> 0 <= siblings -> 0 <= boundaries ->
  0 <= activePage <= total ->
  Binary64.exact total siblings boundaries ->
  Z.of_nat
    (length
       (Pagination64.paginationRange total activePage siblings boundaries))
  = Z.min total (siblings * 2 + 3 + boundaries * 2).
Proof.
  intros Ht Hs Hb Hp Hexact. rewrite paginationRange_exact by done.
  destruct (paginationRange_shape total activePage siblings boundaries);
    rewrite ?length_app, ?length_fmap, ?length_range; simpl; lia.
Qed.

Lemma X1_range_length_exact_witness :
  Z.of_nat (length (Pagination64.paginationRange 100 40 2 3))
  = Z.min 100 (2 * 2 + 3 + 3 * 2).
Proof.
  apply (X1_range_length_exact 100 40 2 3); try lia.
  unfold Binary64.exact. lia.
Defined.

Lemma sumZ_singleton (x : Z) : sumZ [x] = x.
Proof. unfold sumZ. simpl. lia. Qed.

(** X2.  With [total], [siblings] and [boundaries] non-negative, the page
    numbers shown and the page numbers the ellipsis markers stand for add
    up to [total]: no page is counted twice and none is lost. *)
Theorem X2_shown_plus_elided (total activePage siblings boundaries : Z) :
  0 <= total -> 0 <= siblings -> 0 <= boundaries ->
  Z.of_nat
    (length (nums (paginationRange total activePage siblings boundaries)))
  + sumZ (gaps total 0 (paginationRange total activePage siblings boundaries))
  = total.
Proof.
  intros Ht Hs Hb.
  destruct (paginationRange_shape total activePage siblings boundaries).
  - rewrite gaps_Num, nums_Num, length_range. simpl. lia.
  - rewrite gaps_one_dots, prev_of_range, next_of_range, sumZ_singleton
      by lia.
    rewrite !nums_app, !nums_Num, nums_DOTS, !length_app, !length_range.
    simpl. lia.
  - rewrite gaps_one_dots, prev_of_range, next_of_range, sumZ_singleton
      by lia.
    rewrite !nums_app, !nums_Num, nums_DOTS, !length_app, !length_range.
    simpl. lia.
  - rewrite gaps_two_dots by (rewrite range_cons by lia; discriminate).
    rewrite prev_of_range, next_of_range, head_range, last_range by lia.
    rewrite !nums_app, !nums_Num, nums_DOTS, !length_app, !length_range.
    unfold sumZ. simpl. lia.
Qed.

Lemma X2_shown_plus_elided_witness :
  Z.of_nat (length (nums (paginationRange 100 40 2 3)))
  + sumZ (gaps 100 0 (paginationRange 100 40 2 3)) = 100.
Proof. apply (X2_shown_plus_elided 100 40 2 3); lia. Defined.

(** ** The pages that are always shown *)

(** X3.  With [siblings >= 0], [boundaries >= 0] and the active page in
    [0..total], while no operation of the computation rounds
    ([Binary64.exact]), every page of [1..total] within [siblings] of the
    active page is shown. *)
Theorem X3_siblings_shown (total activePage siblings boundaries n : Z) :
  0 <= siblings -> 0 <= boundaries ->
  0 <= activePage <= total ->
  Binary64.exact total siblings boundaries ->
  1 <= n <= total ->
  activePage - siblings <= n <= activePage + siblings ->
  Num n ∈ Pagination64.paginationRange total activePage siblings boundaries.
Proof.
  intros Hs Hb Hp Hexact Hn Hnear.
  rewrite paginationRange_exact by (done || lia).
  destruct (paginationRange_shape total activePage siblings boundaries);
    page_in_shape; lia.
Qed.

Lemma X3_siblings_shown_witness :
  Num 42 ∈ Pagination64.paginationRange 100 40 2 3.
Proof.
  apply (X3_siblings_shown 100 40 2 3 42); try lia.
  unfold Binary64.exact. lia.
Defined.

(** X4.  With [siblings >= 0], [boundaries >= 0] and the active page in
    [0..total], while no operation of the computation rounds
    ([Binary64.exact]), the first [boundaries] pages and the last
    [boundaries] pages of [1..total] are shown, wherever the active page
    is. *)
Theorem X4_boundaries_shown (total activePage siblings boundaries n : Z) :
  0 <= siblings -> 0 <= boundaries ->
  0 <= activePage <= total ->
  Binary64.exact total siblings boundaries ->
  1 <= n <= total ->
  n <= boundaries \/ total - boundaries < n ->
  Num n ∈ Pagination64.paginationRange total activePage siblings boundaries.
Proof.
  intros Hs Hb Hp Hexact Hn Hedge.
  rewrite paginationRange_exact by (done || lia).
  destruct (paginationRange_shape total activePage siblings boundaries);
    page_in_shape; lia.
Qed.

Lemma X4_boundaries_shown_witness :
  Num 98 ∈ Pagination64.paginationRange 100 40 2 3.
Proof.
  apply (X4_boundaries_shown 100 40 2 3 98); try lia.
  unfold Binary64.exact. lia.
Defined.

(** ** The ellipsis markers *)

Lemma dots_count_app (l1 l2 : list PageToken) :
  dots_count (l1 ++ l2) = (dots_count l1 + dots_count l2)%nat.
Proof. unfold dots_count. by rewrite list.filter_app, length_app. Qed.

Lemma dots_count_Num (l : list Z) : dots_count (Num <$> l) = 0%nat.
Proof.
  unfold dots_count. induction l as [|x l IH]; [done|].
  rewrite fmap_cons, filter_cons_False by discriminate. apply IH.
Qed.

Lemma paginationRange_dots_count
    (total activePage siblings boundaries : Z) :
  dots_count (paginationRange total activePage siblings boundaries)
  = if siblings * 2 + 3 + boundaries * 2 >=? total then 0%nat
    else if (boundaries + 2 <? activePage - siblings)
            && (activePage + siblings <? total - boundaries - 1)
         then 2%nat else 1%nat.
Proof.
  destruct (paginationRange_shape total activePage siblings boundaries);
    rewrite ?dots_count_app, ?dots_count_Num; simpl;
    destruct (Z.geb_spec (siblings * 2 + 3 + boundaries * 2) total);
    try lia;
    destruct (Z.ltb_spec (boundaries + 2) (activePage - siblings));
    destruct (Z.ltb_spec (activePage + siblings) (total - boundaries - 1));
    simpl; lia.
Qed.

(** X5.  With [total], [siblings] and [boundaries] non-negative and the
    active page in [0..total], while no operation of the computation
    rounds ([Binary64.exact]): the range holds no ellipsis marker when the
    window [siblings * 2 + 3 + boundaries * 2] is at least [total];
    otherwise it holds two when the active page is more than
    [siblings + boundaries + 2] pages away from both ends
    ([boundaries + 2 < activePage - siblings] and
    [activePage + siblings < total - boundaries - 1]), and one in every
    other case. *)
Theorem X5_dots_count (total activePage siblings boundaries : Z) :
  0 <= total -> 0 <= siblings -> 0 <= boundaries ->
  0 <= activePage <= total ->
  Binary64.exact total siblings boundaries ->
  dots_count
    (Pagination64.paginationRange total activePage siblings boundaries)
  = if siblings * 2 + 3 + boundaries * 2 >=? total then 0%nat
    else if (boundaries + 2 <? activePage - siblings)
            && (activePage + siblings <? total - boundaries - 1)
         then 2%nat else 1%nat.
Proof.
  intros Ht Hs Hb Hp Hexact. rewrite paginationRange_exact by done.
  apply paginationRange_dots_count.
Qed.

Lemma X5_dots_count_witness :
  dots_count (Pagination64.paginationRange 100 40 2 3) = 2%nat.
Proof.
  rewrite (X5_dots_count 100 40 2 3); try lia; [reflexivity|].
  unfold Binary64.exact. lia.
Defined.

(** X6.  When the range elides, it does not move while the active page
    stays near one end: two active pages at most
    [siblings + boundaries + 2] give the same range, and so do two active
    pages at least [total - boundaries - 1 - siblings]. *)
Theorem X6_range_fixed_near_ends
    (total siblings boundaries activePage activePage' : Z) :
  siblings * 2 + 3 + boundaries * 2 < total ->
  (activePage <= siblings + boundaries + 2
   /\ activePage' <= siblings + boundaries + 2)
  \/ (total - boundaries - 1 - siblings <= activePage
      /\ total - boundaries - 1 - siblings <= activePage') ->
  paginationRange total activePage siblings boundaries
  = paginationRange total activePage' siblings boundaries.
Proof.
  intros Hw Hnear.
  destruct (paginationRange_shape total activePage siblings boundaries);
    destruct (paginationRange_shape total activePage' siblings boundaries);
    try reflexivity; lia.
Qed.

Lemma X6_range_fixed_near_ends_witness :
  paginationRange 100 1 2 3 = paginationRange 100 7 2 3.
Proof. apply (X6_range_fixed_near_ends 100 2 3 1 7); lia. Defined.

(** ** Moving through the pages *)

(** X7.  With [total <= 2 ^ 53], inside the pages [next] and [previous]
    undo each other: from a page that is not the last, [next] selects the
    following page and [previous] comes back; from a page that is not the
    first, [previous] selects the preceding page and [next] comes
    back. *)
Theorem X7_next_previous_inverse (total activePage : Z) :
  total <= 2 ^ 53 ->
  (1 <= activePage < total ->
   Pagination64.next total activePage = activePage + 1
   /\ Pagination64.previous total (Pagination64.next total activePage)
      = activePage)
  /\ (1 < activePage <= total ->
      Pagination64.previous total activePage = activePage - 1
      /\ Pagination64.next total (Pagination64.previous total activePage)
         = activePage).
Proof.
  intros Ht. unfold Pagination64.next, Pagination64.previous.
  split; intros Hp.
  - unfold Binary64.add at 2. rewrite (fl_exact (activePage + 1)) by lia.
    rewrite (setPage_inside total (activePage + 1)) by lia.
    split; [|unfold Binary64.sub; rewrite fl_exact by lia];
      unfold Binary64.add; rewrite ?fl_exact by lia;
      rewrite setPage_inside; lia.
  - unfold Binary64.sub at 2. rewrite (fl_exact (activePage - 1)) by lia.
    rewrite (setPage_inside total (activePage - 1)) by lia.
    split; [|unfold Binary64.add; rewrite fl_exact by lia];
      unfold Binary64.sub; rewrite ?fl_exact by lia;
      rewrite setPage_inside; lia.
Qed.

Lemma X7_next_previous_inverse_witness :
  Pagination64.previous 10 (Pagination64.next 10 4) = 4
  /\ Pagination64.next 10 (Pagination64.previous 10 4) = 4.
Proof.
  destruct (X7_next_previous_inverse 10 4) as [Hn Hp]; [lia|].
  split; [apply Hn; lia|apply Hp; lia].
Defined.

(** X8.  At the ends the navigation saturates: [first] selects
    [min 1 total] and [last] selects [max 1 total], so with no page
    ([total <= 0]) [first] selects [total] and [last] selects 1;
    [previous] from the page 1 stays on the page 1, and with
    [total >= 0], [next] from the page [total] stays on it. *)
Theorem X8_navigation_saturates (total : Z) :
  first total = Z.min 1 total
  /\ Pagination.last total = Z.max 1 total
  /\ previous total 1 = 1
  /\ (0 <= total -> next total total = total).
Proof.
  unfold first, Pagination.last, previous, next, setPage. split_and!.
  - simpl. destruct (Z.gtb_spec 1 total); lia.
  - destruct (Z.leb_spec total 0); [lia|].
    destruct (Z.gtb_spec total total); lia.
  - reflexivity.
  - intros Ht. destruct (Z.leb_spec (total + 1) 0); [lia|].
    destruct (Z.gtb_spec (total + 1) total); lia.
Qed.

Lemma X8_navigation_saturates_witness : next 10 10 = 10.
Proof.
  destruct (X8_navigation_saturates 10) as (_ & _ & _ & Hn). apply Hn. lia.
Defined.

(** X9.  With at least one page, [setPage] selects the [clamp] of the
    page number between 1 and [total]; with no page ([total < 1]) the two
    differ on every page number that is 0 or less, where [setPage] selects
    1 and [clamp] gives [total]. *)
Theorem X9_setPage_is_clamp (total pageNumber : Z) :
  (1 <= total -> setPage total pageNumber = clamp pageNumber 1 total)
  /\ (total < 1 -> pageNumber <= 0 ->
      setPage total pageNumber = 1 /\ clamp pageNumber 1 total = total).
Proof.
  split.
  - apply setPage_clamp.
  - intros Ht Hp. split; [by apply setPage_low|]. unfold clamp. lia.
Qed.

Lemma X9_setPage_is_clamp_witness :
  setPage 10 42 = clamp 42 1 10
  /\ setPage 0 (-3) = 1 /\ clamp (-3) 1 0 = 0.
Proof.
  split.
  - destruct (X9_setPage_is_clamp 10 42) as [H _]. apply H. lia.
  - destruct (X9_setPage_is_clamp 0 (-3)) as [_ H]. apply H; lia.
Defined.

(** X10.  With at least one page, [setPage] keeps the order of page
    numbers: a larger request never selects a smaller page. *)
Theorem X10_setPage_monotone (total x y : Z) :
  1 <= total -> x <= y -> setPage total x <= setPage total y.
Proof.
  intros Ht Hxy. rewrite !setPage_clamp by done. unfold clamp. lia.
Qed.

Lemma X10_setPage_monotone_witness : setPage 10 (-2) <= setPage 10 15.
Proof. apply (X10_setPage_monotone 10 (-2) 15); lia. Defined.

(** X12.  With at least one page, the page that [setPage] selects passes
    the [rule] of the state container: a parent that hands the selected
    page back as the controlled [page] keeps the hook controlled. *)
Theorem X12_rule_accepts_selection (total pageNumber : Z) :
  1 <= total -> rule total (Some (setPage total pageNumber)) = true.
Proof.
  intros Ht. simpl. apply Z.leb_le.
  pose proof (setPage_valid total pageNumber Ht) as Hv.
  unfold valid_page in Hv. lia.
Qed.

Lemma X12_rule_accepts_selection_witness :
  rule 10 (Some (setPage 10 42)) = true.
Proof. apply (X12_rule_accepts_selection 10 42). lia. Defined.

(** ** Renders with a fixed [boundaries] *)

Lemma render_all_sound (boundaries : Z) (inputs : list (Z * Z * Z)) :
  forall cell, cell_sound boundaries cell ->
  render_all cell boundaries inputs
  = (fun '(total, activePage, siblings) =>
       paginationRange total activePage siblings boundaries) <$> inputs.
Proof.
  induction inputs as [|[[total activePage] siblings] rest IH];
    intros cell Hsound; [done|].
  destruct (render_range_fixed_boundaries cell total activePage siblings
              boundaries Hsound) as [Hout Hcell].
  simpl. rewrite Hout. f_equal. by apply IH.
Qed.

(** X11.  Through any sequence of renders of one component in which
    [boundaries] never changes, whatever [total], [activePage] and
    [siblings] do, the memoised range of every render is the range the
    callback computes from the inputs of that render. *)
Theorem X11_memo_sound_fixed_boundaries
    (boundaries : Z) (inputs : list (Z * Z * Z)) :
  render_all None boundaries inputs
  = (fun '(total, activePage, siblings) =>
       paginationRange total activePage siblings boundaries) <$> inputs.
Proof. apply render_all_sound. intros c Hc. discriminate Hc. Qed.

(** * The other hooks *)

(** ** clamp *)

(** X13.  With [min <= max], [clamp] gives a value between [min] and
    [max], leaves a value that is already between them unchanged, and
    clamping twice is clamping once. *)
Theorem X13_clamp_within (value min max : Z) :
  min <= max ->
  min <= clamp value min max <= max
  /\ (min <= value <= max -> clamp value min max = value)
  /\ clamp (clamp value min max) min max = clamp value min max.
Proof. unfold clamp. lia. Qed.

Lemma X13_clamp_within_witness :
  2 <= clamp 9 2 5 <= 5
  /\ (2 <= 9 <= 5 -> clamp 9 2 5 = 9)
  /\ clamp (clamp 9 2 5) 2 5 = clamp 9 2 5.
Proof. apply (X13_clamp_within 9 2 5). lia. Defined.

(** X14.  [clamp] never gives more than [max], and with the bounds the
    wrong way round ([max < min]) it gives [max] for every value: the
    upper bound is applied last. *)
Theorem X14_clamp_inverted_bounds (value min max : Z) :
  clamp value min max <= max
  /\ (max < min -> clamp value min max = max).
Proof. unfold clamp. lia. Qed.

Lemma X14_clamp_inverted_bounds_witness : clamp 3 5 2 = 2.
Proof. apply (X14_clamp_inverted_bounds 3 5 2). lia. Defined.

(** ** useForceUpdate *)

(** X15.  From a state in [0..999999] the reducer gives a state in
    [0..999999] that differs from the one it was given: every call of
    [update] changes the state, so React renders again. *)
Theorem X15_reducer_changes_state (value : Z) :
  0 <= value < 1000000 ->
  0 <= ForceUpdate.reducer value < 1000000
  /\ ForceUpdate.reducer value <> value.
Proof.
  intros Hv. unfold ForceUpdate.reducer.
  rewrite Z.rem_mod_nonneg by lia.
  destruct (decide (value = 999999)) as [->|Hne]; [done|].
  rewrite Z.mod_small by lia. lia.
Qed.

Lemma X15_reducer_changes_state_witness :
  0 <= ForceUpdate.reducer 999999 < 1000000
  /\ ForceUpdate.reducer 999999 <> 999999.
Proof. apply (X15_reducer_changes_state 999999). lia. Defined.

(** X16.  After [n] calls of [update] the state is [n mod 1000000]: it
    counts the calls and wraps to 0 at one million. *)
Theorem X16_updates_count_modulo (n : nat) :
  ForceUpdate.updates n = Z.of_nat n mod 1000000.
Proof.
  unfold ForceUpdate.updates. induction n as [|n IH]; [done|].
  rewrite Nat.iter_succ, IH. unfold ForceUpdate.reducer.
  rewrite Z.rem_mod_nonneg.
  - rewrite Zplus_mod_idemp_l. f_equal. lia.
  - pose proof (Z.mod_pos_bound (Z.of_nat n) 1000000). lia.
  - lia.
Qed.

(** ** useCounter *)

Lemma Counter_initial_Some (n : Z) : Counter.initial (Some n) = n.
Proof. simpl. destruct (Z.eqb_spec n 0); congruence. Qed.

Lemma Counter_increment_exact (x : Z) :
  Z.abs x + 1 <= 2 ^ 53 -> Counter.increment x = x + 1.
Proof. intros. unfold Counter.increment, Binary64.add. apply fl_exact. lia. Qed.

Lemma Counter_decrement_exact (x : Z) :
  Z.abs x + 1 <= 2 ^ 53 -> Counter.decrement x = x - 1.
Proof. intros. unfold Counter.decrement, Binary64.sub. apply fl_exact. lia. Qed.

(** X17.  Through a sequence of calls of [increment] and [decrement]
    only, in any order, the count moves by the number of increments minus
    the number of decrements, as long as the starting count is far enough
    from [2 ^ 53] in magnitude for no step to round: its magnitude plus
    the number of calls is at most [2 ^ 53]. *)
Theorem X17_counter_net_change
    (initialValue : option Z) (count : Z) (l : list Counter.Call) :
  Forall (fun c => c = Counter.Increment \/ c = Counter.Decrement) l ->
  Z.abs count + Z.of_nat (length l) <= 2 ^ 53 ->
  Counter.calls initialValue count l
  = count
    + Z.of_nat (length (filter (fun c => c = Counter.Increment) l))
    - Z.of_nat (length (filter (fun c => c = Counter.Decrement) l)).
Proof.
  unfold Counter.calls. revert count.
  induction l as [|c l IH]; intros count Hl Hbound; [simpl; lia|].
  cbn [length] in Hbound.
  apply Forall_cons in Hl as [[->| ->] Hl].
  - rewrite filter_cons_True by done.
    rewrite filter_cons_False by discriminate.
    cbn [foldl Counter.call length].
    rewrite Counter_increment_exact by lia. rewrite IH by (done || lia).
    lia.
  - rewrite filter_cons_False by discriminate.
    rewrite filter_cons_True by done.
    cbn [foldl Counter.call length].
    rewrite Counter_decrement_exact by lia. rewrite IH by (done || lia).
    lia.
Qed.

Lemma X17_counter_net_change_witness :
  Counter.calls (Some 5) 5
    [Counter.Increment; Counter.Decrement; Counter.Decrement] = 5 + 1 - 2.
Proof.
  apply (X17_counter_net_change (Some 5) 5
           [Counter.Increment; Counter.Decrement; Counter.Decrement]).
  - apply Forall_cons_2; [by left|].
    apply Forall_cons_2; [by right|].
    apply Forall_cons_2; [by right|].
    apply Forall_nil_2.
  - simpl. lia.
Defined.

(** ** useCountdown *)

Lemma Countdown_ticks (seconds : Z) (isIncrement : option bool) (n : nat) :
  forall c,
  Z.abs c + Z.of_nat n <= 2 ^ 53 ->
  Countdown.run seconds isIncrement (Countdown.mkState c true)
    (replicate n Countdown.Tick)
  = Countdown.mkState
      (match isIncrement with
       | Some true => c + Z.of_nat n
       | _ => c - Z.of_nat n
       end) true.
Proof.
  unfold Countdown.run.
  induction n as [|n IH]; intros c Hbound.
  - simpl. f_equal. destruct isIncrement as [[]|]; lia.
  - cbn [replicate foldl Countdown.step Countdown.running Countdown.count].
    destruct isIncrement as [[]|]; cbn [Countdown.callback];
      rewrite ?Counter_increment_exact, ?Counter_decrement_exact by lia;
      rewrite IH by lia; f_equal; lia.
Qed.

(** X18.  A countdown that was started counts one per firing of the
    timer and does not stop by itself: after [start] and [n] firings the
    count is [seconds - n] (below zero for [n > seconds]), or
    [seconds + n] with [isIncrement]; and it is still running.  Before
    [start] is called the firings change nothing.  This holds while no
    step rounds: the magnitude of [seconds] plus [n] is at most
    [2 ^ 53]. *)
Theorem X18_countdown_ticks
    (seconds : Z) (isIncrement : option bool) (n : nat) :
  Z.abs seconds + Z.of_nat n <= 2 ^ 53 ->
  Countdown.run seconds isIncrement (Countdown.init seconds)
    (Countdown.Start :: replicate n Countdown.Tick)
  = Countdown.mkState
      (match isIncrement with
       | Some true => seconds + Z.of_nat n
       | _ => seconds - Z.of_nat n
       end) true
  /\ Countdown.run seconds isIncrement (Countdown.init seconds)
       (replicate n Countdown.Tick)
     = Countdown.init seconds.
Proof.
  intros Hbound. unfold Countdown.init. rewrite Counter_initial_Some. split.
  - by apply (Countdown_ticks seconds isIncrement n seconds).
  - unfold Countdown.run. clear Hbound.
    induction n as [|n IH]; [done|]. apply IH.
Qed.

Lemma X18_countdown_ticks_witness :
  Countdown.run 3 None (Countdown.init 3)
    (Countdown.Start :: replicate 5 Countdown.Tick)
  = Countdown.mkState (3 - 5) true.
Proof. apply (X18_countdown_ticks 3 None 5). simpl. lia. Defined.

(** ** useTernaryDarkMode *)

Lemma toggleDict_three (m : TernaryDarkMode.TernaryDarkMode) (k : nat) :
  Nat.iter (3 * k) TernaryDarkMode.toggleDict m = m.
Proof.
  induction k as [|k IH]; [done|].
  replace (3 * S k)%nat with (3 + 3 * k)%nat by lia.
  rewrite Nat.iter_add, IH. by destruct m.
Qed.

(** X19.  Toggling goes round the three modes, light to system to dark to
    light: [n] toggles come back to the mode they started from exactly
    when [n] is a multiple of 3. *)
Theorem X19_toggle_cycle (m : TernaryDarkMode.TernaryDarkMode) (n : nat) :
  Nat.iter n TernaryDarkMode.toggleDict m = m <-> (n mod 3 = 0)%nat.
Proof.
  pose proof (Nat.mod_upper_bound n 3) as Hlt.
  assert (Hn : n = (n mod 3 + 3 * (n / 3))%nat)
    by (pose proof (Nat.div_mod_eq n 3); lia).
  destruct (n mod 3)%nat as [|[|[|r]]]; [| | |lia];
    rewrite Hn, Nat.iter_add, toggleDict_three; simpl.
  - done.
  - split; [by destruct m|lia].
  - split; [by destruct m|lia].
Qed.

(** ** useMap *)

Section useMap_facts.
Context `{Countable K} {V : Type}.
Implicit Types (m prev : gmap K V) (key : K) (value : V).

(** X20.  After [set(key, value)] the map gives [value] for [key] and
    what it gave before for every other key; its size grows by one when
    [key] is new and stays the same when [key] was there. *)
Theorem X20_set_then_get prev key value :
  UseMap.set key value prev !! key = Some value
  /\ (forall key', key' <> key ->
        UseMap.set key value prev !! key' = prev !! key')
  /\ size (UseMap.set key value prev)
     = match prev !! key with
       | Some _ => size prev
       | None => S (size prev)
       end.
Proof.
  unfold UseMap.set. simpl. split_and!.
  - apply lookup_insert_eq.
  - intros key' Hne. by apply lookup_insert_ne.
  - rewrite map_size_insert. by destruct (prev !! key).
Qed.

(** X21.  After [remove(key)] the map has no entry for [key] and keeps
    every other entry; removing a key the map does not have gives the
    same map, and so does removing a key that [set] has just added. *)
Theorem X21_remove prev key value :
  UseMap.remove key prev !! key = None
  /\ (forall key', key' <> key ->
        UseMap.remove key prev !! key' = prev !! key')
  /\ (prev !! key = None ->
      UseMap.remove key prev = prev
      /\ UseMap.remove key (UseMap.set key value prev) = prev).
Proof.
  unfold UseMap.remove, UseMap.set. simpl. split_and!.
  - apply lookup_delete_eq.
  - intros key' Hne. by apply lookup_delete_ne.
  - intros Hnone. split; [by apply delete_id|by apply delete_insert_id].
Qed.

Lemma new_Map_snoc (entries : list (K * V)) (e : K * V) :
  UseMap.new_Map (UseMap.Entries (entries ++ [e]))
  = <[e.1 := e.2]> (UseMap.new_Map (UseMap.Entries entries)).
Proof. simpl. by rewrite foldl_snoc. Qed.

(** X22.  After [setAll(entries)] with an array of pairs, nothing of the
    map before is left: the map gives for a key the value of the last
    pair of [entries] with that key, and nothing for a key that no pair
    has. *)
Theorem X22_setAll_last_pair_wins prev (entries : list (K * V)) key :
  UseMap.setAll (UseMap.Entries entries) prev !! key
  = snd <$> list.last (filter (fun e => e.1 = key) entries).
Proof.
  unfold UseMap.setAll.
  induction entries as [|e entries IH] using rev_ind.
  - apply lookup_empty.
  - rewrite new_Map_snoc, list.filter_app.
    destruct (decide (e.1 = key)) as [Heq|Hne].
    + rewrite filter_cons_True, filter_nil by done.
      rewrite last_snoc. rewrite <- Heq. apply lookup_insert_eq.
    + rewrite filter_cons_False, filter_nil, app_nil_r by done.
      by rewrite lookup_insert_ne.
Qed.

End useMap_facts.

Lemma X20_set_then_get_witness :
  UseMap.set 2 7 (UseMap.initial (Some (UseMap.Entries [(1, 5)]))) !! 1
  = Some 5.
Proof.
  destruct (X20_set_then_get
              (UseMap.initial (Some (UseMap.Entries [(1, 5)]))) 2 7)
    as (_ & Hother & _).
  rewrite (Hother 1) by lia. reflexivity.
Defined.

Lemma X21_remove_witness :
  UseMap.remove 2 (UseMap.set 2 7 (UseMap.new_Map (UseMap.Entries [(1, 5)])))
  = UseMap.new_Map (UseMap.Entries [(1, 5)]).
Proof.
  destruct (X21_remove (UseMap.new_Map (UseMap.Entries [(1, 5)])) 2 7)
    as (_ & _ & Hfresh).
  apply Hfresh. reflexivity.
Defined.

(** ** useFetch *)

Section useFetch_facts.
Context {T : Type} (truthy : T -> bool) (inherited : string -> option T).
Implicit Types (h : Fetch.Hook (T:=T)) (r : Fetch.Response (T:=T)).

(** X23.  The state of the reducer depends on the last action only, and
    never holds data and an error together. *)
Theorem X23_reducer_last_action
    (st : Fetch.State (T:=T)) (actions : list Fetch.Action)
    (a : Fetch.Action) :
  foldl Fetch.fetchReducer st (actions ++ [a])
  = Fetch.fetchReducer Fetch.initialState a
  /\ (Fetch.data (foldl Fetch.fetchReducer st (actions ++ [a])) = None
      \/ Fetch.error (foldl Fetch.fetchReducer st (actions ++ [a])) = None).
Proof.
  rewrite foldl_snoc. destruct a; simpl; auto.
Qed.

Lemma fetchData_cached h r (url : string) (d : T) :
  Fetch.cache h !! url = Some d -> truthy d = true ->
  Fetch.fetchData truthy inherited url r h
  = Fetch.mkHook (Fetch.cache h) (Fetch.cancelRequest h)
      (Fetch.mkState (Some d) None).
Proof.
  intros Hc Ht. unfold Fetch.fetchData, Fetch.read. simpl.
  by rewrite Hc, Ht.
Qed.

(** A request writes at most the entry of its own url. *)
Lemma fetchData_cache h r (url : string) :
  Fetch.cache (Fetch.fetchData truthy inherited url r h) = Fetch.cache h
  \/ exists d,
       Fetch.cache (Fetch.fetchData truthy inherited url r h)
       = <[url := d]> (Fetch.cache h).
Proof.
  destruct h as [cache cancelled st].
  unfold Fetch.fetchData, Fetch.read, Fetch.request, Fetch.catch. simpl.
  destruct (cache !! url) as [c|]; [|destruct (inherited url) as [c|]];
    try (destruct (truthy c); [by left|]);
    destruct r as [e|[] statusText [e|d]]; simpl;
    destruct cancelled; simpl; eauto.
Qed.

Lemma step_keeps_cached h (e : Fetch.Event (T:=T)) (url : string) (d : T) :
  Fetch.cache h !! url = Some d -> truthy d = true ->
  Fetch.cache (Fetch.step truthy inherited h e) !! url = Some d.
Proof.
  intros Hc Ht. destruct e as [[u|] r|]; simpl; [|done..].
  destruct (decide (u = EmptyString)); [done|].
  destruct (decide (u = url)) as [->|Hne].
  - by rewrite (fetchData_cached h r url d).
  - destruct (fetchData_cache h r u) as [->|[d' ->]]; [done|].
    by rewrite lookup_insert_ne.
Qed.

Lemma run_keeps_cached (events : list (Fetch.Event (T:=T)))
    (url : string) (d : T) :
  truthy d = true ->
  forall h, Fetch.cache h !! url = Some d ->
  Fetch.cache (Fetch.run truthy inherited h events) !! url = Some d.
Proof.
  intros Ht. unfold Fetch.run.
  induction events as [|e events IH]; intros h Hc; [done|].
  simpl. apply IH. by apply step_keeps_cached.
Qed.

(** X24.  Once a request for [url] has answered with truthy data, while
    [cache.current[url]] gave no truthy value, the data is in the cache,
    also when the request was cancelled.  It stays there through every
    later effect and cleanup of the instance, and every later [fetchData]
    for [url] delivers that data, whatever the network answers and
    whether cancelled or not. *)
Theorem X24_fetched_data_is_cached
    h (url statusText : string) (d : T)
    (events : list (Fetch.Event (T:=T))) r :
  truthy d = true ->
  (forall c, Fetch.read inherited h url = Some c -> truthy c = false) ->
  let h1 :=
    Fetch.fetchData truthy inherited url
      (Fetch.response true statusText (inr d)) h in
  let h2 := Fetch.run truthy inherited h1 events in
  Fetch.cache h1 !! url = Some d
  /\ Fetch.cache h2 !! url = Some d
  /\ Fetch.state (Fetch.fetchData truthy inherited url r h2)
     = Fetch.mkState (Some d) None.
Proof.
  intros Ht Hmiss h1 h2.
  assert (Hc : Fetch.cache h1 !! url = Some d).
  { subst h1. destruct h as [cache cancelled st].
    unfold Fetch.fetchData, Fetch.read in *. simpl in *.
    destruct (cache !! url) as [c|] eqn:Hlook;
      [|destruct (inherited url) as [c|] eqn:Hin];
      rewrite ?(Hmiss c eq_refl); simpl;
      destruct cancelled; simpl; apply lookup_insert_eq. }
  assert (Hc2 : Fetch.cache h2 !! url = Some d)
    by (by apply run_keeps_cached).
  split_and!; [done..|].
  by rewrite (fetchData_cached h2 r url d).
Qed.

Lemma effect_keeps_cancelRequest h (url : option string) r :
  Fetch.cancelRequest (Fetch.effect truthy inherited url r h)
  = Fetch.cancelRequest h.
Proof.
  unfold Fetch.effect. destruct url as [u|]; [|done].
  destruct (decide (u = EmptyString)); [done|].
  destruct h as [cache cancelled st].
  unfold Fetch.fetchData, Fetch.read, Fetch.request, Fetch.catch. simpl.
  destruct (cache !! u) as [c|]; [|destruct (inherited u) as [c|]];
    try (destruct (truthy c); [done|]);
    destruct r as [e|[] statusText [e|d]]; simpl;
    by destruct cancelled.
Qed.

Lemma run_keeps_cancelled (events : list (Fetch.Event (T:=T))) :
  forall h, Fetch.cancelRequest h = true ->
  Fetch.cancelRequest (Fetch.run truthy inherited h events) = true.
Proof.
  unfold Fetch.run.
  induction events as [|[url r|] events IH]; intros h Hc; simpl; [done| |].
  - apply IH. by rewrite effect_keeps_cancelRequest.
  - by apply IH.
Qed.

(** X25.  Nothing sets [cancelRequest] back: after a cleanup it holds
    through every later effect and cleanup of the instance, and from then
    on an effect for a url under which [cache.current[url]] gives no
    truthy value, own or inherited, leaves the state at loading, with no
    data and no error, whatever the network answers. *)
Theorem X25_cancelled_for_good
    h (events : list (Fetch.Event (T:=T))) (url : string) r :
  let h' := Fetch.run truthy inherited (Fetch.cleanup h) events in
  Fetch.cancelRequest h' = true
  /\ (url <> EmptyString ->
      (forall c, Fetch.read inherited h' url = Some c -> truthy c = false) ->
      Fetch.state (Fetch.effect truthy inherited (Some url) r h')
      = Fetch.initialState).
Proof.
  intros h'.
  assert (Hc : Fetch.cancelRequest h' = true)
    by (by apply run_keeps_cancelled).
  split; [done|]. intros Hurl Hmiss.
  unfold Fetch.effect. destruct (decide (url = EmptyString)); [done|].
  destruct h' as [cache cancelled st]. simpl in *. subst cancelled.
  unfold Fetch.fetchData, Fetch.read, Fetch.request, Fetch.catch in *.
  simpl in *.
  destruct (cache !! url) as [c|] eqn:Hlook;
    [|destruct (inherited url) as [c|] eqn:Hin];
    rewrite ?(Hmiss c eq_refl);
    by destruct r as [e|[] statusText [e|d]].
Qed.

End useFetch_facts.

Lemma X24_fetched_data_is_cached_witness :
  Fetch.state
    (Fetch.fetchData truthy_number (Object_prototype 1) "/a"
       (Fetch.rejected "offline")
       (Fetch.run truthy_number (Object_prototype 1)
          (Fetch.fetchData truthy_number (Object_prototype 1) "/a"
             (Fetch.response true "OK" (inr 42)) Fetch.mount)
          [Fetch.Cleanup;
           Fetch.Effect (Some "/b"%string)
             (Fetch.response true "OK" (inr 7))]))
  = Fetch.mkState (Some 42) None.
Proof.
  destruct (X24_fetched_data_is_cached truthy_number (Object_prototype 1)
              Fetch.mount "/a" "OK" 42
              [Fetch.Cleanup;
               Fetch.Effect (Some "/b"%string)
                 (Fetch.response true "OK" (inr 7))]
              (Fetch.rejected "offline")) as (_ & _ & Hstate).
  - reflexivity.
  - intros c Hc. vm_compute in Hc. discriminate Hc.
  - apply Hstate.
Defined.

Lemma X25_cancelled_for_good_witness :
  Fetch.state
    (Fetch.effect truthy_number (Object_prototype 1) (Some "/b"%string)
       (Fetch.response true "OK" (inr 7))
       (Fetch.run truthy_number (Object_prototype 1)
          (Fetch.cleanup Fetch.mount) []))
  = Fetch.initialState.
Proof.
  destruct (X25_cancelled_for_good truthy_number (Object_prototype 1)
              Fetch.mount [] "/b"
              (Fetch.response true "OK" (inr 7))) as [_ Hstuck].
  apply Hstuck.
  - discriminate.
  - intros c Hc. vm_compute in Hc. discriminate Hc.
Defined.

(** Under an inherited name the effect delivers the inherited value
    without asking the network, also after a cleanup. *)
Example effect_inherited_name :
  Fetch.state
    (Fetch.effect truthy_number (Object_prototype 1)
       (Some "constructor"%string) (Fetch.rejected "offline")
       (Fetch.cleanup Fetch.mount))
  = Fetch.mkState (Some 1) None.
Proof. reflexivity. Qed.

(** ** useIsFirstRender, useUpdateEffect and useDidUpdate *)

Lemma firstRenders_later (n : nat) :
  Effects.firstRenders false n = replicate n false.
Proof. induction n as [|n IH]; [done|]. simpl. by rewrite IH. Qed.

(** X26.  Through the renders of a component [useIsFirstRender] returns
    [true] at the first render and [false] at every later one. *)
Theorem X26_first_render_only (n : nat) :
  Effects.firstRenders true (S n) = true :: replicate n false.
Proof. simpl. by rewrite firstRenders_later. Qed.

Lemma renders_useUpdateEffect (l : list Effects.Deps) :
  forall d,
  Effects.renders Effects.useUpdateEffect (Effects.mkCell false (Some d)) l
  = zip_with (fun a b => Effects.due (Some a) b) (d :: l) l.
Proof.
  induction l as [|d' l IH]; intros d; [done|].
  simpl. rewrite IH. f_equal. apply andb_true_r.
Qed.

Lemma useDidUpdate_mounted (d d' : Effects.Deps) :
  Effects.useDidUpdate d' (Effects.mkCell true (Some d))
  = (Effects.due (Some d) d', Effects.mkCell true (Some d')).
Proof.
  unfold Effects.useDidUpdate. cbn [Effects.ref Effects.lastDeps].
  by destruct (Effects.due (Some d) d').
Qed.

Lemma renders_useDidUpdate (l : list Effects.Deps) :
  forall d,
  Effects.renders Effects.useDidUpdate (Effects.mkCell true (Some d)) l
  = zip_with (fun a b => Effects.due (Some a) b) (d :: l) l.
Proof.
  induction l as [|d' l IH]; intros d; [done|].
  cbn [Effects.renders zip_with]. rewrite useDidUpdate_mounted.
  simpl. by rewrite IH.
Qed.

(** A dependency array that gets shorter is equal, by React's comparison,
    to the one before: no callback is called. *)
Example renders_shorter_array :
  Effects.renders Effects.useDidUpdate Effects.didUpdate_mount
    [Some [2; 1]; Some []; Some [3]]
  = [false; false; false].
Proof. reflexivity. Qed.

(** X27.  [useUpdateEffect] and [useDidUpdate] call their callback at the
    same renders: never at the first render, and at a later render
    exactly when React finds the effect due: there is no dependency
    array, or the array differs from the one of the render before at an
    index both arrays have. *)
Theorem X27_update_effects_agree (d : Effects.Deps) (l : list Effects.Deps) :
  Effects.renders Effects.useUpdateEffect Effects.updateEffect_mount (d :: l)
  = false :: zip_with (fun a b => Effects.due (Some a) b) (d :: l) l
  /\ Effects.renders Effects.useDidUpdate Effects.didUpdate_mount (d :: l)
     = Effects.renders Effects.useUpdateEffect Effects.updateEffect_mount
         (d :: l).
Proof.
  assert (Hu :
    Effects.renders Effects.useUpdateEffect Effects.updateEffect_mount (d :: l)
    = false :: zip_with (fun a b => Effects.due (Some a) b) (d :: l) l).
  { cbn [Effects.renders]. unfold Effects.useUpdateEffect at 1 2.
    simpl. f_equal. apply renders_useUpdateEffect. }
  split; [done|]. rewrite Hu.
  change (Effects.renders Effects.useDidUpdate Effects.didUpdate_mount
            (d :: l))
    with (false :: Effects.renders Effects.useDidUpdate
                     (Effects.mkCell true (Some d)) l).
  f_equal. apply renders_useDidUpdate.
Qed.
